(** * Template-driven extraction and pagination traversal of the [/scrape] handler

    A shallow embedding of the scraping core of [server.js]: the two field
    extractors that run inside the rendered page ([extractText] and
    [extractAttribute]), the item selection and record construction of the
    [page.evaluate] callback, the pagination loop of the handler, and the
    handler itself with its validation, its per-template CSV write and its
    catch-all.

    What belongs to the platform and not to the repository is kept abstract:
    the CSS selector engine, the regular-expression engine, the URL parser
    and the network are variables of the section [Scraper].  The DOM tree,
    the strings and the JavaScript values that the code manipulates are
    concrete. *)

From Stdlib Require Import String Ascii List ZArith Bool Lia.
Import ListNotations.
Open Scope string_scope.

(** ** JavaScript values and completions *)

(** The values that end up in a record: strings, and [null] (what
    [getAttribute] answers for an attribute the element does not have). *)
Inductive JsValue : Type :=
| JNull
| JStr (s : string).

(** The exceptions that the modelled code can meet. *)
Inductive Exn : Type :=
| SyntaxError      (* malformed selector or pattern *)
| TypeError        (* property of undefined, missing method, invalid URL *)
| NavigationError. (* page.goto rejected *)

(** Result of running a piece of JavaScript: a value, or a thrown exception. *)
Inductive Completion (A : Type) : Type :=
| Normal (a : A)
| Throw (e : Exn).
Arguments Normal {A} a.
Arguments Throw {A} e.

Definition bind {A B : Type} (c : Completion A) (k : A -> Completion B) : Completion B :=
  match c with
  | Normal a => k a
  | Throw e => Throw e
  end.

Notation "x <- c ;; k" := (bind c (fun x => k))
  (at level 61, c at next level, right associativity).

(** An optional JSON property: [None] is [undefined] (the key is missing). *)
Definition truthy (v : option string) : bool :=
  match v with
  | None => false
  | Some s => negb (s =? "")
  end.

(** [v || d] for an optional string [v]. *)
Definition or_default (v : option string) (d : string) : string :=
  match v with
  | None => d
  | Some s => if s =? "" then d else s
  end.

(** Truthiness of a value that is a string or [null]. *)
Definition truthy_value (v : JsValue) : bool :=
  match v with
  | JNull => false
  | JStr s => negb (s =? "")
  end.

(** String conversion of an optional string argument handed to a DOM method
    that expects a string: [undefined] becomes the text "undefined". *)
Definition toString (v : option string) : string :=
  match v with
  | None => "undefined"
  | Some s => s
  end.

(** ** Strings *)

Fixpoint drop (n : nat) (s : string) : string :=
  match n, s with
  | O, _ => s
  | S _, EmptyString => EmptyString
  | S k, String _ rest => drop k rest
  end.

(** [s.replace(pat, repl)] with a string pattern: only the first occurrence
    is replaced. *)
Fixpoint replace (pat repl s : string) : string :=
  if String.prefix pat s then repl ++ drop (String.length pat) s
  else match s with
       | EmptyString => EmptyString
       | String a rest => String a (replace pat repl rest)
       end.

(** White space as [String.prototype.trim] sees it, the ASCII part: tab,
    line feed, vertical tab, form feed, carriage return, space. *)
Definition is_space (a : ascii) : bool :=
  match nat_of_ascii a with
  | 9 | 10 | 11 | 12 | 13 | 32 => true
  | _ => false
  end.

(** White space as the DOM sees it when it splits a list of class names:
    tab, line feed, form feed, carriage return, space (no vertical tab). *)
Definition is_ascii_whitespace (a : ascii) : bool :=
  match nat_of_ascii a with
  | 9 | 10 | 12 | 13 | 32 => true
  | _ => false
  end.

(** [s.toLowerCase()] on the ASCII letters, which is how the DOM lowers an
    attribute name. *)
Definition lower (a : ascii) : ascii :=
  let n := nat_of_ascii a in
  if (65 <=? n)%nat && (n <=? 90)%nat then ascii_of_nat (n + 32) else a.

Fixpoint lowercase (s : string) : string :=
  match s with
  | EmptyString => EmptyString
  | String a rest => String (lower a) (lowercase rest)
  end.

Fixpoint trimStart (s : string) : string :=
  match s with
  | EmptyString => EmptyString
  | String a rest => if is_space a then trimStart rest else s
  end.

Definition reverse (s : string) : string :=
  string_of_list_ascii (rev (list_ascii_of_string s)).

Definition trim (s : string) : string :=
  reverse (trimStart (reverse (trimStart s))).

(** The tokens of a list of class names, in order: the parts between
    white space.  [acc] holds the characters of the token being read, last
    one first. *)
Fixpoint tokens_from (acc : list ascii) (l : list ascii) : list string :=
  match l with
  | [] => match acc with
          | [] => []
          | _ => [string_of_list_ascii (rev acc)]
          end
  | a :: rest =>
      if is_ascii_whitespace a then
        match acc with
        | [] => tokens_from [] rest
        | _ => string_of_list_ascii (rev acc) :: tokens_from [] rest
        end
      else tokens_from (a :: acc) rest
  end.

Definition tokens (s : string) : list string :=
  tokens_from [] (list_ascii_of_string s).

(** [normalizeDomain] (lines 56-58): [domain.replace(/^www\./, '')] *)
Definition normalizeDomain (domain : string) : string :=
  if String.prefix "www." domain then drop 4 domain else domain.

(** ** The document tree *)

(** A node is a text node or an element with its attributes (in source
    order) and its children.  A document is the node whose children are the
    top-level nodes, so that the queries of [document] and of an element
    both range over the descendants of the node they are called on. *)
#[warnings="-register-all"]
Inductive Node : Type :=
| TextNode (data : string)
| Element (tagName : string) (attributes : list (string * string)) (childNodes : list Node).

Definition Document : Type := Node.

(** The element itself followed by the elements below it, in document
    (depth-first, pre-order) order; nothing for a text node. *)
Fixpoint inclusiveDescendants (n : Node) : list Node :=
  match n with
  | TextNode _ => []
  | Element _ _ children => n :: flat_map inclusiveDescendants children
  end.

(** The elements strictly below [n], in document order: what
    [n.querySelectorAll('*')] enumerates. *)
Definition descendants (n : Node) : list Node :=
  match n with
  | TextNode _ => []
  | Element _ _ children => flat_map inclusiveDescendants children
  end.

Fixpoint textContent (n : Node) : string :=
  match n with
  | TextNode data => data
  | Element _ _ children => String.concat "" (map textContent children)
  end.

Fixpoint lookup (name : string) (attrs : list (string * string)) : option string :=
  match attrs with
  | [] => None
  | (k, v) :: rest => if k =? name then Some v else lookup name rest
  end.

(** [el.getAttribute(name)] on an element of an HTML document, whose
    attributes carry the lower-case names that the parser gave them: the
    name is lowered, and the answer is the value of the first attribute of
    that name, or [None] for [null]. *)
Definition getAttribute (el : Node) (name : string) : option string :=
  match el with
  | TextNode _ => None
  | Element _ attrs _ => lookup (lowercase name) attrs
  end.

Definition localName (el : Node) : string :=
  match el with
  | TextNode _ => ""
  | Element tag _ _ => tag
  end.

Definition classList (el : Node) : list string :=
  match getAttribute el "class" with
  | None => []
  | Some v => tokens v
  end.

Definition hasClass (c : string) (el : Node) : bool :=
  existsb (String.eqb c) (classList el).

(** [root.getElementsByClassName(names)]: the descendants of [root] that
    carry every class named in [names]; nothing when [names] holds no
    token. *)
Definition getElementsByClassName (root : Node) (names : string) : list Node :=
  match tokens names with
  | [] => []
  | cs => filter (fun el => forallb (fun c => hasClass c el) cs) (descendants root)
  end.

(** ** Templates *)

Module FieldSpec.
Record t : Type := make {
  type : option string;
  selector : option string;
  method : option string;
  attribute : option string
}.
End FieldSpec.

Module NextPage.
Record t : Type := make {
  selector : option string;
  method : option string
}.
End NextPage.

(** [fields] lists the properties of [template.fields] in the order
    [for ... in] enumerates them; a missing [fields] is [None]. *)
Module Template.
Record t : Type := make {
  itemSelector : option string;
  itemSelectorMethod : option string;
  fields : option (list (string * FieldSpec.t));
  nextPage : option NextPage.t;
  paginationLimit : option Z
}.
End Template.

(** A scraped record: the own properties of [itemData] in insertion
    order. *)
Definition JsObject : Type := list (string * JsValue).

(** Writing an own property: an existing one keeps its place, a new one
    goes last. *)
Fixpoint write_own (o : JsObject) (k : string) (v : JsValue) : JsObject :=
  match o with
  | [] => [(k, v)]
  | (k', v') :: rest =>
      if k' =? k then (k', v) :: rest else (k', v') :: write_own rest k v
  end.

(** [o[k] = v] on an object that began as [{}], for a [v] that is a string
    or [null].  The key "__proto__" is the accessor that the object inherits
    from [Object.prototype]: the assignment goes to its setter, which
    creates no own property. *)
Definition set_property (o : JsObject) (k : string) (v : JsValue) : JsObject :=
  if k =? "__proto__" then o else write_own o k v.

(** The three kinds of list-like object that [items] can hold.  Arrays and
    [NodeList]s have a [forEach] method; an [HTMLCollection] (the result of
    [getElementsByClassName]) has none. *)
Inductive Items : Type :=
| JsArray (l : list Node)
| NodeList (l : list Node)
| HTMLCollection (l : list Node).

Definition forEach {A : Type} (items : Items) (f : Node -> A) : Completion (list A) :=
  match items with
  | JsArray l => Normal (map f l)
  | NodeList l => Normal (map f l)
  | HTMLCollection _ => Throw TypeError
  end.

(** ** What the handler leaves behind *)

(** One CSV file written by [csvWriter.writeRecords]. *)
Record CsvFile : Type := {
  csvDomain : string;
  csvTemplate : string;
  csvHeader : list string;
  csvRecords : list JsObject
}.

(** The world outside the handler: the URLs handed to [page.goto] so far
    (oldest first) and the files written so far (oldest first). *)
Record World : Type := {
  requested : list string;
  files : list CsvFile
}.

(** The variables of the [while] loop. *)
Record Loop : Type := {
  currentPageUrl : string;
  currentPage : Z;
  aggregatedData : list JsObject
}.

(** How one turn of the loop ends: the loop goes round again, the loop is
    left ([hasNextPage] is false, or [break]), or an exception escapes.  As
    the result of a bounded run, [Next] means that the loop is still
    running. *)
Inductive Step : Type :=
| Next (st : Loop)
| Stop (st : Loop)
| Raise (e : Exn).

Record Request : Type := {
  url : option string;
  templates : option (list (string * Template.t))
}.

(** [res.status(code).json({ key: text })] *)
Record Response : Type := {
  status : Z;
  body : string * string
}.

Definition badRequest : Response :=
  {| status := 400; body := ("error", "URL and templates are required.") |}.

Definition scrapingFailed : Response :=
  {| status := 500; body := ("error", "Scraping failed.") |}.

Definition scrapingCompleted : Response :=
  {| status := 200; body := ("message", "Scraping completed successfully.") |}.

(** The end of a bounded run of the handler: a response was sent, an
    exception escaped the handler (no response is sent), or the handler is
    still running. *)
Inductive Outcome : Type :=
| Responded (r : Response)
| Unhandled (e : Exn)
| Pending.

(** How the loop over the templates ends. *)
Inductive Run : Type :=
| Finished
| Raised (e : Exn)
| Unfinished.

(** ** Fixtures

    A small selector engine, pattern engine and URL parser, each the real
    one restricted to the inputs the examples use, and the pages and
    templates of the examples. *)

Module Fixture.

Fixpoint beforeDot (s : string) : string :=
  match s with
  | EmptyString => EmptyString
  | String a rest => if Ascii.eqb a "." then EmptyString else String a (beforeDot rest)
  end.

Fixpoint afterDot (s : string) : option string :=
  match s with
  | EmptyString => None
  | String a rest => if Ascii.eqb a "." then Some rest else afterDot rest
  end.

(** Selectors of the forms [tag], [.class], [tag.class] and [#id]; the
    empty selector is rejected. *)
Definition selectors (n : Node) (sel : string) : option (list Node) :=
  if String.prefix "#" sel then
    Some (filter (fun el => match getAttribute el "id" with
                            | Some i => i =? drop 1 sel
                            | None => false
                            end) (descendants n))
  else
    let tag := beforeDot sel in
    match afterDot sel with
    | None =>
        if tag =? "" then None
        else Some (filter (fun el => localName el =? tag) (descendants n))
    | Some c =>
        if c =? "" then None
        else Some (filter (fun el => ((tag =? "") || (localName el =? tag)) && hasClass c el)
                     (descendants n))
    end.

Fixpoint contains (pat s : string) : bool :=
  String.prefix pat s ||
  match s with
  | EmptyString => false
  | String _ rest => contains pat rest
  end.

(** Patterns made of letters and digits, which match the strings that
    contain them; with the flag [i] letter case is ignored.  The pattern
    "(" is rejected. *)
Definition regexp (pattern flags : string) : option (string -> bool) :=
  if pattern =? "(" then None
  else if flags =? "i" then Some (fun s => contains (lowercase pattern) (lowercase s))
  else Some (contains pattern).

Fixpoint upToSlash (s : string) : string :=
  match s with
  | EmptyString => EmptyString
  | String a rest => if Ascii.eqb a "/" then EmptyString else String a (upToSlash rest)
  end.

(** The host of an absolute [https] URL. *)
Definition host (u : string) : option string :=
  if String.prefix "https://" u && negb (upToSlash (drop 8 u) =? "")
  then Some (upToSlash (drop 8 u)) else None.

(** Absolute [https] URLs resolve to themselves, and a reference that
    starts with one slash replaces the path of the base; a reference such
    as "http://", which has a scheme and no host, is rejected. *)
Definition resolve (href base : string) : option string :=
  match host href with
  | Some _ => Some href
  | None =>
      if String.prefix "/" href && negb (String.prefix "//" href) then
        match host base with
        | Some h => Some ("https://" ++ h ++ href)
        | None => None
        end
      else None
  end.

Definition anchorHref (document : Document) (h : string) : string :=
  match resolve h "https://x.test/list" with
  | Some u => u
  | None => h
  end.

Definition text (tag : string) (attrs : list (string * string)) (data : string) : Node :=
  Element tag attrs [TextNode data].

Definition card (title : string) : Node :=
  Element "div" [("class", "card")]
    [text "span" [("class", "title")] title; text "a" [("class", "more")] "details"].

Definition page (body : list Node) : Document :=
  Element "#document" [] [Element "html" [] [Element "body" [] body]].

Definition listUrl : string := "https://x.test/list".

Definition page1 : Document :=
  page [card " Alpha "; card "Beta";
        text "a" [("class", "next"); ("href", "/list?page=2")] "Next"].

Definition page2 : Document :=
  page [card "Gamma"].

(** A page whose next link has a scheme and no host. *)
Definition brokenLinkPage : Document :=
  page [card "Alpha"; text "a" [("class", "next"); ("href", "http://")] "Next"].

(** A site of two pages; every other URL fails to load. *)
Definition site (n : nat) (u : string) : option Document :=
  if u =? listUrl then Some page1
  else if u =? "https://x.test/list?page=2" then Some page2
  else None.

(** The same site when only the first navigation of the request succeeds. *)
Definition flakySite (n : nat) (u : string) : option Document :=
  match n with
  | O => site n u
  | S _ => None
  end.

Definition brokenLinkSite (n : nat) (u : string) : option Document :=
  if u =? listUrl then Some brokenLinkPage else None.

Definition titleField : FieldSpec.t :=
  FieldSpec.make (Some "text") (Some ".title") (Some "css") None.

Definition linkField : FieldSpec.t :=
  FieldSpec.make (Some "attribute") (Some "a.more") None (Some "href").

Definition nextLink : NextPage.t :=
  NextPage.make (Some "a.next") (Some "css").

Definition cards (limit : option Z) : Template.t :=
  Template.make (Some ".card") None (Some [("title", titleField)]) (Some nextLink) limit.

Definition cardsOnce : Template.t :=
  Template.make (Some ".card") None (Some [("title", titleField)]) None None.

Definition cardLinks : Template.t :=
  Template.make (Some ".card") None
    (Some [("title", titleField); ("link", linkField)]) None None.

Definition noFields : Template.t :=
  Template.make (Some ".card") None None None None.

Definition noItemSelector : Template.t :=
  Template.make None None (Some [("title", titleField)]) None None.

Definition emptyWorld : World := {| requested := []; files := [] |}.

End Fixture.

(** ** More samples

    A page that links to itself, and a template that asks for its items by
    class. *)

Module Sample.

Definition loopUrl : string := "https://x.test/loop".

(** A page whose next link leads back to the page itself. *)
Definition loopPage : Document :=
  Fixture.page [Fixture.card "Alpha";
                Fixture.text "a" [("class", "next"); ("href", "/loop")] "Next"].

Definition loopSite (n : nat) (u : string) : option Document :=
  if u =? loopUrl then Some loopPage else None.

Definition cardsByClass : Template.t :=
  Template.make (Some ".card") (Some "class")
    (Some [("title", Fixture.titleField)]) None None.


End Sample.

(** ** The scraper *)

Section Scraper.

(** The selector engine of the page: the elements below a node that a
    selector matches, in document order; [None] when the selector is
    rejected (a [SyntaxError]). *)
Variable cssEngine : Node -> string -> option (list Node).

(** [new RegExp(pattern, flags)]: the [test] function of the compiled
    pattern; [None] when the pattern is rejected (a [SyntaxError]). *)
Variable RegExp : string -> string -> option (string -> bool).

(** [new URL(href, base).href]; [None] when it throws (a [TypeError]). *)
Variable URL : string -> string -> option string.

(** [new URL(url).hostname]; [None] when it throws. *)
Variable hostname : string -> option string.

(** The [href] property of an anchor of the document that has an [href]
    attribute: the attribute resolved against the base URL of the document. *)
Variable baseResolve : Document -> string -> string.

(** [page.goto(url)] as the [n]-th navigation of the request: the document
    that was rendered, or [None] when the navigation is rejected. *)
Variable goto : nat -> string -> option Document.

(** [n.querySelectorAll(sel)].  The universal selector is fixed by the
    model; every other selector is left to the engine. *)
Definition querySelectorAll (n : Node) (sel : string) : Completion (list Node) :=
  if sel =? "*" then Normal (descendants n)
  else match cssEngine n sel with
       | Some l => Normal l
       | None => Throw SyntaxError
       end.

(** [n.querySelector(sel)]: the first element of [n.querySelectorAll(sel)],
    or [None] for [null]. *)
Definition querySelector (n : Node) (sel : string) : Completion (option Node) :=
  l <- querySelectorAll n sel ;; Normal (hd_error l).

(** [new RegExp(selector, 'i')]; an [undefined] pattern compiles to the
    empty pattern, which matches every string. *)
Definition compile (selector : option string) : Completion (string -> bool) :=
  match selector with
  | None => Normal (fun _ => true)
  | Some s => match RegExp s "i" with
              | Some test => Normal test
              | None => Throw SyntaxError
              end
  end.

(** [selector.replace(pat, '')]; reading [replace] from [undefined] throws. *)
Definition strip (pat : string) (selector : option string) : Completion string :=
  match selector with
  | None => Throw TypeError
  | Some s => Normal (replace pat "" s)
  end.

(** The method dispatch that [extractText] and [extractAttribute] share
    (the [if]/[else if] chain that assigns [el], lines 179-189 and
    199-209); [Normal None] is an [el] that stays [undefined] or is [null]. *)
Definition findElement (element : Node) (selector : option string) (method : string)
  : Completion (option Node) :=
  if method =? "css" then
    querySelector element (toString selector)
  else if method =? "class" then
    c <- strip "." selector ;;
    Normal (hd_error (getElementsByClassName element c))
  else if method =? "id" then
    i <- strip "#" selector ;;
    querySelector element ("#" ++ i)
  else if method =? "regex" then
    regex <- compile selector ;;
    all <- querySelectorAll element "*" ;;
    Normal (find (fun el => regex (trim (textContent el))) all)
  else Normal None.

(** [extractText] (lines 177-195): the [catch] turns every exception into
    the empty string. *)
Definition extractText (element : Node) (selector : option string) (method : string) : string :=
  match findElement element selector method with
  | Normal (Some el) => trim (textContent el)
  | Normal None => ""
  | Throw _ => ""
  end.

(** [extractAttribute] (lines 197-215): the result of [getAttribute] is
    returned as it is. *)
Definition extractAttribute (element : Node) (selector : option string)
  (attribute : option string) (method : string) : JsValue :=
  match findElement element selector method with
  | Normal (Some el) =>
      match getAttribute el (toString attribute) with
      | Some v => JStr v
      | None => JNull
      end
  | Normal None => JStr ""
  | Throw _ => JStr ""
  end.

(** The item selection of the [page.evaluate] callback (lines 218-231). *)
Definition selectItems (document : Document) (template : Template.t) : Completion Items :=
  let itemMethod := or_default (Template.itemSelectorMethod template) "css" in
  if itemMethod =? "css" then
    l <- querySelectorAll document (toString (Template.itemSelector template)) ;;
    Normal (NodeList l)
  else if itemMethod =? "class" then
    c <- strip "." (Template.itemSelector template) ;;
    Normal (HTMLCollection (getElementsByClassName document c))
  else if itemMethod =? "id" then
    i <- strip "#" (Template.itemSelector template) ;;
    el <- querySelector document ("#" ++ i) ;;
    match el with
    | Some e => Normal (JsArray [e])
    | None => Normal (JsArray [])
    end
  else if itemMethod =? "regex" then
    regex <- compile (Template.itemSelector template) ;;
    all <- querySelectorAll document "*" ;;
    Normal (JsArray (filter (fun el => regex (trim (textContent el))) all))
  else Normal (JsArray []).

(** [v === s] for an optional string [v]. *)
Definition strictEquals (v : option string) (s : string) : bool :=
  match v with
  | Some x => x =? s
  | None => false
  end.

(** The value that the body of the [for ... in] loop computes for one field
    (lines 240-246). *)
Definition fieldValue (item : Node) (fieldInfo : FieldSpec.t) : JsValue :=
  if strictEquals (FieldSpec.type fieldInfo) "text" then
    JStr (extractText item (FieldSpec.selector fieldInfo)
            (or_default (FieldSpec.method fieldInfo) "css"))
  else if strictEquals (FieldSpec.type fieldInfo) "attribute" then
    extractAttribute item (FieldSpec.selector fieldInfo) (FieldSpec.attribute fieldInfo)
      (or_default (FieldSpec.method fieldInfo) "css")
  else JStr "".

(** The record of one item: [itemData] after the [for ... in] loop (lines
    238-248). *)
Definition itemData (fields : list (string * FieldSpec.t)) (item : Node) : JsObject :=
  fold_left (fun o f => set_property o (fst f) (fieldValue item (snd f))) fields [].

(** Enumerating the properties of a missing [fields] runs the body zero
    times. *)
Definition fieldsOf (template : Template.t) : list (string * FieldSpec.t) :=
  match Template.fields template with
  | Some fs => fs
  | None => []
  end.

(** The [page.evaluate] callback (lines 176-253): the batch of one rendered
    page. *)
Definition evaluate (document : Document) (template : Template.t) : Completion (list JsObject) :=
  items <- selectItems document template ;;
  forEach items (itemData (fieldsOf template)).

(** [a.href] *)
Definition hrefProperty (document : Document) (a : Node) : string :=
  match getAttribute a "href" with
  | None => ""
  | Some h => baseResolve document h
  end.

(** [el => el.getAttribute('href')] *)
Definition hrefAttribute (el : Node) : JsValue :=
  match getAttribute el "href" with
  | Some v => JStr v
  | None => JNull
  end.

(** [page.$(sel)] then, when an element was found, [page.$eval(sel, ...)]:
    the values of [nextPageExists] and [nextPageHref]. *)
Definition probe (document : Document) (sel : string) : Completion (bool * JsValue) :=
  el <- querySelector document sel ;;
  match el with
  | Some e => Normal (true, hrefAttribute e)
  | None => Normal (false, JStr "")
  end.

(** The search for the link to the next page (lines 274-297): the values
    of [nextPageExists] and [nextPageHref] before they are tested. *)
Definition findNextPage (document : Document) (nextPageSelector : string)
  (nextPageMethod : string) : Completion (bool * JsValue) :=
  if nextPageMethod =? "css" then
    probe document nextPageSelector
  else if nextPageMethod =? "class" then
    probe document ("." ++ replace "." "" nextPageSelector)
  else if nextPageMethod =? "id" then
    probe document ("#" ++ replace "#" "" nextPageSelector)
  else if nextPageMethod =? "regex" then
    anchors <- querySelectorAll document "a" ;;
    let links := map (fun a => (hrefProperty document a, trim (textContent a))) anchors in
    match RegExp nextPageSelector "i" with
    | None => Throw SyntaxError
    | Some regex =>
        match find (fun link => regex (snd link)) links with
        | Some nextLink => Normal (true, JStr (fst nextLink))
        | None => Normal (false, JStr "")
        end
    end
  else Normal (false, JStr "").

(** [paginationLimit && currentPage >= paginationLimit], where
    [paginationLimit] is [template.paginationLimit || null]. *)
Definition limitReached (template : Template.t) (page : Z) : bool :=
  match Template.paginationLimit template with
  | Some limit => negb (limit =? 0)%Z && (limit <=? page)%Z
  | None => false
  end.

Definition valueText (v : JsValue) : string :=
  match v with
  | JStr s => s
  | JNull => ""
  end.

(** The check for the next page, after the limit was checked (lines
    268-308): the URL of the next page, or [None] when [hasNextPage]
    becomes false. *)
Definition checkNextPage (document : Document) (template : Template.t)
  (pageUrl : string) : Completion (option string) :=
  match Template.nextPage template with
  | None => Normal None
  | Some np =>
      match NextPage.selector np with
      | None => Normal None
      | Some nextPageSelector =>
          if nextPageSelector =? "" then Normal None
          else
            found <- findNextPage document nextPageSelector
                       (or_default (NextPage.method np) "css") ;;
            if fst found && truthy_value (snd found) then
              match URL (valueText (snd found)) pageUrl with
              | Some next => Normal (Some next)
              | None => Throw TypeError
              end
            else Normal None
      end
  end.

Definition record_request (w : World) (u : string) : World :=
  {| requested := (requested w ++ [u])%list; files := files w |}.

(** One turn of the [while] loop (lines 168-308). *)
Definition iteration (template : Template.t) (w : World) (st : Loop) : World * Step :=
  let w' := record_request w (currentPageUrl st) in
  match goto (length (requested w)) (currentPageUrl st) with
  | None => (w', Raise NavigationError)
  | Some document =>
      match evaluate document template with
      | Throw e => (w', Raise e)
      | Normal scrapedData =>
          let aggregated := (aggregatedData st ++ scrapedData)%list in
          if limitReached template (currentPage st) then
            (w', Stop {| currentPageUrl := currentPageUrl st;
                         currentPage := currentPage st;
                         aggregatedData := aggregated |})
          else
            match checkNextPage document template (currentPageUrl st) with
            | Throw e => (w', Raise e)
            | Normal (Some next) =>
                (w', Next {| currentPageUrl := next;
                             currentPage := (currentPage st + 1)%Z;
                             aggregatedData := aggregated |})
            | Normal None =>
                (w', Stop {| currentPageUrl := currentPageUrl st;
                             currentPage := currentPage st;
                             aggregatedData := aggregated |})
            end
      end
  end.

(** At most [fuel] turns of the loop. *)
Fixpoint loop (fuel : nat) (template : Template.t) (w : World) (st : Loop) : World * Step :=
  match fuel with
  | O => (w, Next st)
  | S fuel' =>
      match iteration template w st with
      | (w', Next st') => loop fuel' template w' st'
      | r => r
      end
  end.

(** The variables of the loop when a template starts. *)
Definition start (u : string) : Loop :=
  {| currentPageUrl := u; currentPage := 1%Z; aggregatedData := [] |}.

(** [Object.keys(aggregatedData[0])] *)
Definition headers (data : list JsObject) : list string :=
  match data with
  | [] => []
  | first :: _ => map fst first
  end.

(** The CSV write that ends the body of the loop over the templates (lines
    312-327). *)
Definition saveCsv (domain templateName : string) (data : list JsObject) (w : World) : World :=
  match data with
  | [] => w
  | _ => {| requested := requested w;
            files := (files w ++ [{| csvDomain := domain; csvTemplate := templateName;
                                     csvHeader := headers data;
                                     csvRecords := data |}])%list |}
  end.

(** The loop over the templates (lines 158-328), each traversal bounded by
    [fuel] turns. *)
Fixpoint forTemplates (fuel : nat) (u domain : string)
  (ts : list (string * Template.t)) (w : World) : World * Run :=
  match ts with
  | [] => (w, Finished)
  | (templateName, template) :: rest =>
      match loop fuel template w (start u) with
      | (w', Stop st) =>
          forTemplates fuel u domain rest (saveCsv domain templateName (aggregatedData st) w')
      | (w', Raise e) => (w', Raised e)
      | (w', Next _) => (w', Unfinished)
      end
  end.

(** The [/scrape] handler (lines 123-337), from the validation of the
    request to the response.  The middleware in front of it (API key, rate limit), the
    set-up of the tab (user agent, request interception), the delay between
    pages and the creation of directories have no part in what is decided
    here and are left out; the CSV write is taken to succeed. *)
Definition scrape (fuel : nat) (req : Request) (w : World) : World * Outcome :=
  match url req, templates req with
  | Some u, Some ts =>
      if u =? "" then (w, Responded badRequest)
      else
        match hostname u with
        | None => (w, Unhandled TypeError)
        | Some host =>
            match forTemplates fuel u (normalizeDomain host) ts w with
            | (w', Finished) => (w', Responded scrapingCompleted)
            | (w', Raised _) => (w', Responded scrapingFailed)
            | (w', Unfinished) => (w', Pending)
            end
        end
  | _, _ => (w, Responded badRequest)
  end.

(** The batch that the [n]-th navigation of the request yields when it
    goes to [u]. *)
Definition pageBatch (template : Template.t) (n : nat) (u : string) : list JsObject :=
  match goto n u with
  | Some document =>
      match evaluate document template with
      | Normal scrapedData => scrapedData
      | Throw _ => []
      end
  | None => []
  end.

(** The batches of the pages [us], visited one after the other from the
    [n]-th navigation on. *)
Fixpoint pageBatches (template : Template.t) (n : nat) (us : list string) : list (list JsObject) :=
  match us with
  | [] => []
  | u :: rest => pageBatch template n u :: pageBatches template (S n) rest
  end.

(** The variables of the loop after a turn that left them defined. *)
Definition withBatch (st : Loop) (scrapedData : list JsObject) : Loop :=
  {| currentPageUrl := currentPageUrl st;
     currentPage := currentPage st;
     aggregatedData := (aggregatedData st ++ scrapedData)%list |}.

(** * Properties *)

(** ** Lists and strings *)





Lemma eqb_neq_false (a b : string) : a <> b -> (a =? b) = false.
Proof. intros H. apply String.eqb_neq. exact H. Qed.

(** ** Selector resolution *)



(** C10, amended. A method name that is not empty and is none of [css],
    [class], [id] and [regex] finds no element: a field that uses it gets
    the empty string, and an item selection that uses it yields an empty
    batch without throwing, so that the turn of the loop goes on to the
    limit and to the next page with nothing added.  (An empty method name
    is replaced by [css].) *)
Theorem unknown_method_matches_nothing (m : string) :
  m <> "" -> m <> "css" -> m <> "class" -> m <> "id" -> m <> "regex" ->
  (forall element selector, findElement element selector m = Normal None)
  /\ (forall element selector attribute,
        extractText element selector m = ""
        /\ extractAttribute element selector attribute m = JStr "")
  /\ (forall item fieldInfo,
        FieldSpec.method fieldInfo = Some m -> fieldValue item fieldInfo = JStr "")
  /\ (forall document template,
        Template.itemSelectorMethod template = Some m ->
        evaluate document template = Normal [])
  /\ (forall template w st document,
        Template.itemSelectorMethod template = Some m ->
        goto (length (requested w)) (currentPageUrl st) = Some document ->
        iteration template w st
        = (record_request w (currentPageUrl st),
           if limitReached template (currentPage st) then Stop (withBatch st [])
           else match checkNextPage document template (currentPageUrl st) with
                | Throw e => Raise e
                | Normal (Some next) =>
                    Next {| currentPageUrl := next;
                            currentPage := (currentPage st + 1)%Z;
                            aggregatedData := (aggregatedData st ++ [])%list |}
                | Normal None => Stop (withBatch st [])
                end)).
Proof.
  intros H0 H1 H2 H3 H4.
  apply eqb_neq_false in H0, H1, H2, H3, H4.
  assert (Hfind : forall element selector, findElement element selector m = Normal None).
  { intros. unfold findElement. rewrite H1, H2, H3, H4. reflexivity. }
  assert (Hx : forall element selector attribute,
             extractText element selector m = ""
             /\ extractAttribute element selector attribute m = JStr "").
  { intros. unfold extractText, extractAttribute. rewrite Hfind. auto. }
  assert (Hitems : forall document template,
             Template.itemSelectorMethod template = Some m ->
             evaluate document template = Normal []).
  { intros document template Hm. unfold evaluate, selectItems. rewrite Hm. simpl.
    rewrite H0, H1, H2, H3, H4. reflexivity. }
  split; [exact Hfind|]. split; [exact Hx|]. split; [|split; [exact Hitems|]].
  - intros item fieldInfo Hm. unfold fieldValue. rewrite Hm. simpl. rewrite H0.
    destruct (strictEquals (FieldSpec.type fieldInfo) "text");
      [f_equal; apply (proj1 (Hx _ _ None))|].
    destruct (strictEquals (FieldSpec.type fieldInfo) "attribute");
      [apply (proj2 (Hx _ _ _))|].
    reflexivity.
  - intros template w st document Hm Hgoto. unfold iteration.
    rewrite Hgoto, (Hitems document template Hm).
    destruct (limitReached template (currentPage st)); [reflexivity|].
    destruct (checkNextPage document template (currentPageUrl st)) as [[next|]|e];
      reflexivity.
Qed.

(** ** Field extraction *)


(** The value of a [text] field is always a string. *)
Lemma text_field_is_string (item : Node) (fieldInfo : FieldSpec.t) :
  FieldSpec.type fieldInfo = Some "text" ->
  exists s, fieldValue item fieldInfo = JStr s.
Proof.
  intros H. unfold fieldValue. rewrite H. simpl. eauto.
Qed.

(** C1, the defect. On an element that the lookup finds and that lacks the
    attribute, [extractAttribute] answers [null], not the empty string:
    here the anchor of a card has no [href]. *)
Theorem extractAttribute_absent_is_null :
  findElement (Fixture.card "Alpha") (Some "more") "class"
    = Normal (Some (Fixture.text "a" [("class", "more")] "details"))
  /\ getAttribute (Fixture.text "a" [("class", "more")] "details") "href" = None
  /\ extractAttribute (Fixture.card "Alpha") (Some "more") (Some "href") "class" = JNull
  /\ JNull <> JStr "".
Proof.
  repeat split; try reflexivity. discriminate.
Qed.

(** ** Records *)





(** ** One turn of the loop *)

Lemma iteration_world (template : Template.t) (w : World) (st : Loop) :
  fst (iteration template w st) = record_request w (currentPageUrl st).
Proof.
  unfold iteration.
  destruct (goto _ _); [|reflexivity].
  destruct (evaluate _ _); [|reflexivity].
  destruct (limitReached _ _); [reflexivity|].
  destruct (checkNextPage _ _ _) as [[next|]|e]; reflexivity.
Qed.

Lemma iteration_next (template : Template.t) (w w' : World) (st st' : Loop) :
  iteration template w st = (w', Next st') ->
  limitReached template (currentPage st) = false
  /\ currentPage st' = (currentPage st + 1)%Z
  /\ aggregatedData st'
     = (aggregatedData st ++ pageBatch template (length (requested w)) (currentPageUrl st))%list.
Proof.
  unfold iteration, pageBatch.
  destruct (goto _ _); [|discriminate].
  destruct (evaluate _ _); [|discriminate].
  destruct (limitReached _ _); [discriminate|].
  destruct (checkNextPage _ _ _) as [[next|]|e]; try discriminate.
  intros [= _ <-]. auto.
Qed.

Lemma iteration_stop (template : Template.t) (w w' : World) (st st' : Loop) :
  iteration template w st = (w', Stop st') ->
  st' = withBatch st (pageBatch template (length (requested w)) (currentPageUrl st)).
Proof.
  unfold iteration, pageBatch, withBatch.
  destruct (goto _ _); [|discriminate].
  destruct (evaluate _ _); [|discriminate].
  destruct (limitReached _ _); [intros [= _ <-]; reflexivity|].
  destruct (checkNextPage _ _ _) as [[next|]|e]; try discriminate.
  intros [= _ <-]. reflexivity.
Qed.

Lemma limit_not_reached (template : Template.t) (limit page : Z) :
  Template.paginationLimit template = Some limit ->
  (0 < limit)%Z ->
  limitReached template page = false ->
  (page < limit)%Z.
Proof.
  unfold limitReached. intros -> Hpos H.
  apply andb_false_iff in H. destruct H as [H|H].
  - apply negb_false_iff, Z.eqb_eq in H. lia.
  - apply Z.leb_gt in H. exact H.
Qed.

Lemma limit_reached (template : Template.t) (limit page : Z) :
  Template.paginationLimit template = Some limit ->
  (0 < limit)%Z ->
  (limit <= page)%Z ->
  limitReached template page = true.
Proof.
  unfold limitReached. intros -> Hpos H.
  apply andb_true_iff. split.
  - apply negb_true_iff, Z.eqb_neq. lia.
  - apply Z.leb_le. exact H.
Qed.

(** ** The loop *)

Lemma loop_files (fuel : nat) (template : Template.t) :
  forall w st, files (fst (loop fuel template w st)) = files w.
Proof.
  induction fuel as [|fuel IH]; intros w st; simpl; [reflexivity|].
  pose proof (iteration_world template w st) as Hw.
  destruct (iteration template w st) as [w1 [st1|st1|e]]; simpl in Hw; subst w1;
    [rewrite IH|..]; reflexivity.
Qed.

Lemma loop_aggregates (fuel : nat) (template : Template.t) :
  forall w st w' st',
    loop fuel template w st = (w', Stop st') \/ loop fuel template w st = (w', Next st') ->
    exists visited,
      requested w' = (requested w ++ visited)%list
      /\ aggregatedData st'
         = (aggregatedData st
            ++ concat (pageBatches template (length (requested w)) visited))%list.
Proof.
  induction fuel as [|fuel IH]; intros w st w' st' H; simpl in H.
  - exists []. destruct H as [H|H]; [discriminate|]. injection H as <- <-.
    simpl. rewrite !app_nil_r. auto.
  - pose proof (iteration_world template w st) as Hw.
    destruct (iteration template w st) as [w1 [st1|st1|e]] eqn:E; simpl in Hw; subst w1.
    + apply iteration_next in E. destruct E as (_ & _ & Hagg).
      apply IH in H. destruct H as (visited & Hreq & Hagg').
      exists (currentPageUrl st :: visited). simpl in Hreq, Hagg' |- *.
      rewrite Hreq, Hagg', Hagg, <- !app_assoc. simpl.
      rewrite length_app, Nat.add_comm. auto.
    + apply iteration_stop in E. subst st1.
      exists [currentPageUrl st].
      destruct H as [H|H]; [|discriminate]. injection H as <- <-.
      simpl. rewrite app_nil_r. auto.
    + destruct H; discriminate.
Qed.

Lemma loop_requests_bound (fuel : nat) (template : Template.t) (limit : Z) :
  Template.paginationLimit template = Some limit ->
  (0 < limit)%Z ->
  forall w st,
    (currentPage st <= limit)%Z ->
    exists visited,
      requested (fst (loop fuel template w st)) = (requested w ++ visited)%list
      /\ (Z.of_nat (length visited) <= limit - currentPage st + 1)%Z.
Proof.
  intros Hlim Hpos.
  induction fuel as [|fuel IH]; intros w st Hpage; simpl.
  - exists []. rewrite app_nil_r. simpl. split; [reflexivity|lia].
  - pose proof (iteration_world template w st) as Hw.
    destruct (iteration template w st) as [w1 [st1|st1|e]] eqn:E; simpl in Hw; subst w1.
    + apply iteration_next in E. destruct E as (Hnot & Hnext & _).
      apply (limit_not_reached _ _ _ Hlim Hpos) in Hnot.
      destruct (IH (record_request w (currentPageUrl st)) st1) as (visited & Hreq & Hlen);
        [lia|].
      exists (currentPageUrl st :: visited). rewrite Hreq. simpl.
      rewrite <- app_assoc. split; [reflexivity|lia].
    + exists [currentPageUrl st]. simpl. split; [reflexivity|lia].
    + exists [currentPageUrl st]. simpl. split; [reflexivity|lia].
Qed.

Lemma loop_leaves_within_limit (fuel : nat) (template : Template.t) (limit : Z) :
  Template.paginationLimit template = Some limit ->
  (0 < limit)%Z ->
  forall w st,
    (currentPage st <= limit)%Z ->
    (limit - currentPage st + 1 <= Z.of_nat fuel)%Z ->
    forall st', snd (loop fuel template w st) <> Next st'.
Proof.
  intros Hlim Hpos.
  induction fuel as [|fuel IH]; intros w st Hpage Hfuel st'; simpl.
  - lia.
  - destruct (iteration template w st) as [w1 [st1|st1|e]] eqn:E; simpl; try discriminate.
    apply iteration_next in E. destruct E as (Hnot & Hnext & _).
    apply (limit_not_reached _ _ _ Hlim Hpos) in Hnot.
    apply IH; lia.
Qed.

(** X3. The page counter starts at 1 and grows by one with every page:
    when the loop is left it is the number of pages that were asked for,
    and while the loop runs it is one more. *)
Theorem page_counter_counts_pages (fuel : nat) (template : Template.t)
  (w w' : World) (u : string) (st : Loop) :
  loop fuel template w (start u) = (w', Stop st)
  \/ loop fuel template w (start u) = (w', Next st) ->
  exists visited,
    requested w' = (requested w ++ visited)%list
    /\ currentPage st
       = match snd (loop fuel template w (start u)) with
         | Next _ => (Z.of_nat (length visited) + 1)%Z
         | _ => Z.of_nat (length visited)
         end.
Proof.
  assert (G : forall fuel w st w' st',
             loop fuel template w st = (w', Stop st')
             \/ loop fuel template w st = (w', Next st') ->
             exists visited,
               requested w' = (requested w ++ visited)%list
               /\ currentPage st'
                  = match snd (loop fuel template w st) with
                    | Next _ => (currentPage st + Z.of_nat (length visited))%Z
                    | _ => (currentPage st + Z.of_nat (length visited) - 1)%Z
                    end).
  { clear fuel w w' st. induction fuel as [|fuel IH]; intros w st w' st' H; simpl in H |- *.
    - exists []. destruct H as [H|H]; [discriminate|]. injection H as <- <-.
      simpl. rewrite app_nil_r. split; [reflexivity|lia].
    - pose proof (iteration_world template w st) as Hw.
      destruct (iteration template w st) as [w1 [st1|st1|e]] eqn:E; simpl in Hw; subst w1.
      + apply iteration_next in E. destruct E as (_ & Hpage & _).
        destruct (IH _ _ _ _ H) as (visited & Hreq & Hcount).
        exists (currentPageUrl st :: visited). simpl in Hreq |- *.
        rewrite Hreq, <- app_assoc. split; [reflexivity|].
        rewrite Hcount, Hpage.
        destruct (snd (loop fuel template (record_request w (currentPageUrl st)) st1)); lia.
      + apply iteration_stop in E. subst st1.
        exists [currentPageUrl st].
        destruct H as [H|H]; [|discriminate]. injection H as <- <-.
        simpl. split; [reflexivity|lia].
      + destruct H; discriminate. }
  intros H. destruct (G fuel w (start u) w' st H) as (visited & Hreq & Hcount).
  exists visited. split; [exact Hreq|]. rewrite Hcount.
  change (currentPage (start u)) with 1%Z.
  destruct (snd (loop fuel template w (start u))); lia.
Qed.

(** C3. With a positive [paginationLimit], a turn of the loop whose page
    counter has reached the limit leaves the loop right after the batch of
    its page was appended, whatever the template says about a next page and
    whatever links the page holds; so a traversal asks for at most
    [paginationLimit] pages, and it is over within that many turns. *)
Theorem pagination_limit_precedence (template : Template.t) (limit : Z) :
  Template.paginationLimit template = Some limit ->
  (0 < limit)%Z ->
  (forall w st document scrapedData,
      goto (length (requested w)) (currentPageUrl st) = Some document ->
      evaluate document template = Normal scrapedData ->
      (limit <= currentPage st)%Z ->
      iteration template w st
      = (record_request w (currentPageUrl st), Stop (withBatch st scrapedData)))
  /\ (forall fuel w u,
        exists visited,
          requested (fst (loop fuel template w (start u))) = (requested w ++ visited)%list
          /\ (Z.of_nat (length visited) <= limit)%Z)
  /\ (forall fuel w u st,
        (limit <= Z.of_nat fuel)%Z ->
        snd (loop fuel template w (start u)) <> Next st).
Proof.
  intros Hlim Hpos. split; [|split].
  - intros w st document scrapedData Hgoto Heval Hpage.
    unfold iteration. rewrite Hgoto, Heval.
    rewrite (limit_reached _ _ _ Hlim Hpos Hpage). reflexivity.
  - intros fuel w u.
    destruct (loop_requests_bound fuel template limit Hlim Hpos w (start u))
      as (visited & Hreq & Hlen); [simpl; lia|].
    exists visited. simpl in Hlen. split; [exact Hreq|lia].
  - intros fuel w u st Hfuel.
    apply (loop_leaves_within_limit fuel template limit Hlim Hpos); simpl; lia.
Qed.

(** C9. When a traversal is left (and at every turn before), the
    aggregated data is the concatenation of the batches of the pages that
    were visited, in the order of the navigations and with the order inside
    each batch kept; its length is the sum of the lengths of the batches. *)
Theorem aggregation_is_concatenation (fuel : nat) (template : Template.t)
  (w w' : World) (u : string) (st : Loop) :
  loop fuel template w (start u) = (w', Stop st)
  \/ loop fuel template w (start u) = (w', Next st) ->
  exists visited,
    let batches := pageBatches template (length (requested w)) visited in
    requested w' = (requested w ++ visited)%list
    /\ aggregatedData st = concat batches
    /\ length (aggregatedData st) = list_sum (map (@length JsObject) batches).
Proof.
  intros H. apply loop_aggregates in H. destruct H as (visited & Hreq & Hagg).
  exists visited. simpl in Hagg |- *. split; [exact Hreq|]. split; [exact Hagg|].
  rewrite Hagg. apply length_concat.
Qed.

(** C4, amended. In a turn whose page was rendered and scraped and whose
    counter has not reached the limit: without [nextPage], or without a
    selector in it, the loop is left; when the search for the link finds no
    element, or finds one whose [href] is missing or empty, the loop is
    left; when the search throws, the traversal fails; otherwise the [href]
    is resolved against the URL of the current page, and the loop goes on
    at the resolved URL with the counter incremented when that succeeds,
    while the traversal fails when it does not. *)
Theorem next_link_check (template : Template.t) (w : World) (st : Loop)
  (document : Document) (scrapedData : list JsObject) :
  goto (length (requested w)) (currentPageUrl st) = Some document ->
  evaluate document template = Normal scrapedData ->
  limitReached template (currentPage st) = false ->
  let w' := record_request w (currentPageUrl st) in
  let left := (w', Stop (withBatch st scrapedData)) in
  (Template.nextPage template = None -> iteration template w st = left)
  /\ (forall np,
        Template.nextPage template = Some np ->
        truthy (NextPage.selector np) = false ->
        iteration template w st = left)
  /\ (forall np sel,
        Template.nextPage template = Some np ->
        NextPage.selector np = Some sel ->
        sel <> "" ->
        let search := findNextPage document sel (or_default (NextPage.method np) "css") in
        (forall e, search = Throw e -> iteration template w st = (w', Raise e))
        /\ (forall nextPageExists nextPageHref,
              search = Normal (nextPageExists, nextPageHref) ->
              (nextPageExists = false -> iteration template w st = left)
              /\ (truthy_value nextPageHref = false -> iteration template w st = left)
              /\ (nextPageExists = true ->
                  truthy_value nextPageHref = true ->
                  iteration template w st
                  = (w', match URL (valueText nextPageHref) (currentPageUrl st) with
                         | Some next =>
                             Next {| currentPageUrl := next;
                                     currentPage := (currentPage st + 1)%Z;
                                     aggregatedData :=
                                       (aggregatedData st ++ scrapedData)%list |}
                         | None => Raise TypeError
                         end)))).
Proof.
  intros Hgoto Heval Hlimit w' left.
  assert (Hit : iteration template w st
                = match checkNextPage document template (currentPageUrl st) with
                  | Throw e => (w', Raise e)
                  | Normal (Some next) =>
                      (w', Next {| currentPageUrl := next;
                                   currentPage := (currentPage st + 1)%Z;
                                   aggregatedData :=
                                     (aggregatedData st ++ scrapedData)%list |})
                  | Normal None => left
                  end).
  { unfold iteration. rewrite Hgoto, Heval, Hlimit. reflexivity. }
  rewrite Hit. unfold checkNextPage. split; [|split].
  - intros ->. reflexivity.
  - intros np -> Hsel. unfold truthy in Hsel.
    destruct (NextPage.selector np) as [sel|]; [|reflexivity].
    apply negb_false_iff in Hsel. rewrite Hsel. reflexivity.
  - intros np sel -> -> Hne. rewrite (eqb_neq_false _ _ Hne). split.
    + intros e ->. reflexivity.
    + intros nextPageExists nextPageHref ->. simpl. split; [|split].
      * intros ->. reflexivity.
      * intros ->. rewrite andb_false_r. reflexivity.
      * intros -> ->. simpl.
        destruct (URL (valueText nextPageHref) (currentPageUrl st)); reflexivity.
Qed.

(** ** The handler *)

Lemma forTemplates_app (fuel : nat) (u domain : string)
  (before after : list (string * Template.t)) :
  forall w,
    forTemplates fuel u domain (before ++ after)%list w
    = match forTemplates fuel u domain before w with
      | (w1, Finished) => forTemplates fuel u domain after w1
      | r => r
      end.
Proof.
  induction before as [|[name template] before IH]; intros w; simpl; [reflexivity|].
  destruct (loop fuel template w (start u)) as [w1 [st|st|e]]; try reflexivity.
  apply IH.
Qed.

(** C6, amended. When a navigation fails during the traversal of a
    template, the request is answered with the single error "Scraping
    failed."; nothing is written for that template or for the templates
    after it, and the files of the templates before it, which were written
    as each of them ended, stay: the files are those that the request with
    only the earlier templates leaves. *)
Theorem navigation_failure_persistence (fuel : nat) (u host name : string)
  (before after : list (string * Template.t)) (template : Template.t)
  (w w1 w2 : World) :
  u <> "" ->
  hostname u = Some host ->
  forTemplates fuel u (normalizeDomain host) before w = (w1, Finished) ->
  loop fuel template w1 (start u) = (w2, Raise NavigationError) ->
  scrape fuel {| url := Some u;
                 templates := Some (before ++ (name, template) :: after)%list |} w
  = (w2, Responded scrapingFailed)
  /\ files w2 = files w1
  /\ scrape fuel {| url := Some u; templates := Some before |} w
     = (w1, Responded scrapingCompleted).
Proof.
  intros Hu Hhost Hbefore Hloop. unfold scrape. simpl.
  rewrite (eqb_neq_false _ _ Hu), Hhost, forTemplates_app, Hbefore. simpl.
  rewrite Hloop. split; [reflexivity|]. split; [|reflexivity].
  pose proof (loop_files fuel template w1 (start u)) as H.
  rewrite Hloop in H. exact H.
Qed.

Lemma loop_requested_extends (fuel : nat) (template : Template.t) :
  forall w st,
    exists more, requested (fst (loop fuel template w st)) = (requested w ++ more)%list.
Proof.
  induction fuel as [|fuel IH]; intros w st; simpl.
  - exists []. symmetry. apply app_nil_r.
  - pose proof (iteration_world template w st) as Hw.
    destruct (iteration template w st) as [w1 [st1|st1|e]]; simpl in Hw; subst w1;
      try (exists [currentPageUrl st]; reflexivity).
    destruct (IH (record_request w (currentPageUrl st)) st1) as (more & H).
    exists (currentPageUrl st :: more). rewrite H. simpl.
    rewrite <- app_assoc. reflexivity.
Qed.

Lemma loop_first_request (fuel : nat) (template : Template.t) (w : World) (st : Loop) :
  exists more,
    requested (fst (loop (S fuel) template w st))
    = (requested w ++ currentPageUrl st :: more)%list.
Proof.
  simpl. pose proof (iteration_world template w st) as Hw.
  destruct (iteration template w st) as [w1 [st1|st1|e]]; simpl in Hw; subst w1;
    try (exists []; reflexivity).
  destruct (loop_requested_extends fuel template
              (record_request w (currentPageUrl st)) st1) as (more & H).
  exists more. rewrite H. simpl. rewrite <- app_assoc. reflexivity.
Qed.

Lemma saveCsv_requested (domain name : string) (data : list JsObject) (w : World) :
  requested (saveCsv domain name data w) = requested w.
Proof. destruct data; reflexivity. Qed.

Lemma forTemplates_requested_extends (fuel : nat) (u domain : string)
  (ts : list (string * Template.t)) :
  forall w,
    exists more,
      requested (fst (forTemplates fuel u domain ts w)) = (requested w ++ more)%list.
Proof.
  induction ts as [|[name template] ts IH]; intros w; simpl.
  - exists []. symmetry. apply app_nil_r.
  - destruct (loop_requested_extends fuel template w (start u)) as (more & H).
    destruct (loop fuel template w (start u)) as [w1 [st|st|e]]; simpl in H;
      try (exists more; exact H).
    destruct (IH (saveCsv domain name (aggregatedData st) w1)) as (more' & H').
    exists (more ++ more')%list.
    rewrite H', saveCsv_requested, H, <- app_assoc. reflexivity.
Qed.

(** C7, amended. A request without [url] (missing or empty) or without
    [templates] is answered with the status 400 before anything is
    navigated to or written, and that answer differs from the one given
    when a navigation fails.  The templates themselves are not checked: as
    soon as the request has a URL that parses and a first template,
    whatever that template holds, the URL is navigated to. *)
Theorem request_validation :
  (forall fuel ts w,
      scrape fuel {| url := None; templates := ts |} w = (w, Responded badRequest)
      /\ scrape fuel {| url := Some ""; templates := ts |} w = (w, Responded badRequest))
  /\ (forall fuel u w,
        scrape fuel {| url := u; templates := None |} w = (w, Responded badRequest))
  /\ badRequest <> scrapingFailed
  /\ (forall fuel u host name template rest w,
        u <> "" ->
        hostname u = Some host ->
        exists more,
          requested (fst (scrape (S fuel)
                            {| url := Some u; templates := Some ((name, template) :: rest) |} w))
          = (requested w ++ u :: more)%list).
Proof.
  split; [|split; [|split]].
  - intros fuel ts w. split; [reflexivity|]. unfold scrape. simpl.
    destruct ts; reflexivity.
  - intros fuel [u|] w; reflexivity.
  - discriminate.
  - intros fuel u host name template rest w Hu Hhost.
    unfold scrape. cbn [url templates].
    rewrite (eqb_neq_false _ _ Hu), Hhost.
    assert (H : exists more,
               requested (fst (forTemplates (S fuel) u (normalizeDomain host)
                                 ((name, template) :: rest) w))
               = (requested w ++ u :: more)%list).
    { cbn [forTemplates].
      destruct (loop_first_request fuel template w (start u)) as (more & H).
      destruct (loop (S fuel) template w (start u)) as [w1 [st|st|e]];
        cbn [fst start currentPageUrl] in H |- *; try (exists more; exact H).
      destruct (forTemplates_requested_extends (S fuel) u (normalizeDomain host) rest
                  (saveCsv (normalizeDomain host) name (aggregatedData st) w1))
        as (more' & H').
      exists (more ++ more')%list.
      rewrite H', saveCsv_requested, H, <- app_assoc. reflexivity. }
    destruct H as (more & H). exists more.
    destruct (forTemplates (S fuel) u (normalizeDomain host) ((name, template) :: rest) w)
      as [w' [| |]]; exact H.
Qed.


(** ** Beyond the limit and the next link *)

Lemma iteration_ignores_zero_limit (a b : option string)
  (c : option (list (string * FieldSpec.t))) (d : option NextPage.t) (w : World) (st : Loop) :
  iteration (Template.make a b c d (Some 0%Z)) w st
  = iteration (Template.make a b c d None) w st.
Proof. reflexivity. Qed.

(** X4. A limit of 0 is no limit: the traversal is the one of the template
    without [paginationLimit].  Any other limit below 2, negative ones
    included, ends the traversal with its first page. *)
Theorem limit_edge_cases :
  (forall a b c d fuel w st,
      loop fuel (Template.make a b c d (Some 0%Z)) w st
      = loop fuel (Template.make a b c d None) w st)
  /\ (forall template limit fuel w u,
        Template.paginationLimit template = Some limit ->
        limit <> 0%Z ->
        (limit <= 1)%Z ->
        requested (fst (loop (S fuel) template w (start u))) = (requested w ++ [u])%list
        /\ forall st, snd (loop (S fuel) template w (start u)) <> Next st).
Proof.
  split.
  - intros a b c d fuel. induction fuel as [|fuel IH]; intros w st; simpl; [reflexivity|].
    rewrite iteration_ignores_zero_limit.
    destruct (iteration (Template.make a b c d None) w st) as [w1 [st1|st1|e]];
      [apply IH|reflexivity|reflexivity].
  - intros template limit fuel w u Hlim Hnz Hle.
    assert (Hreached : limitReached template (currentPage (start u)) = true).
    { unfold limitReached. rewrite Hlim. simpl.
      apply andb_true_iff. split.
      - apply negb_true_iff, Z.eqb_neq. exact Hnz.
      - apply Z.leb_le. exact Hle. }
    simpl. pose proof (iteration_world template w (start u)) as Hw.
    destruct (iteration template w (start u)) as [w1 [st1|st1|e]] eqn:E;
      simpl in Hw; subst w1.
    + apply iteration_next in E. destruct E as (Hnot & _). congruence.
    + split; [reflexivity|discriminate].
    + split; [reflexivity|discriminate].
Qed.

(** X5. Without a limit nothing ends a traversal whose page links to
    itself: after any number of turns the loop is still running, it has
    asked for the same URL at every turn, and it holds one more copy of the
    batch of the page per turn. *)
Theorem self_link_never_stops (template : Template.t) (u : string)
  (document : Document) (batch : list JsObject) :
  Template.paginationLimit template = None ->
  (forall n, goto n u = Some document) ->
  evaluate document template = Normal batch ->
  checkNextPage document template u = Normal (Some u) ->
  forall fuel w,
    loop fuel template w (start u)
    = ({| requested := (requested w ++ repeat u fuel)%list; files := files w |},
       Next {| currentPageUrl := u;
               currentPage := (1 + Z.of_nat fuel)%Z;
               aggregatedData := concat (repeat batch fuel) |}).
Proof.
  intros Hlim Hgoto Heval Hnext.
  assert (G : forall fuel w page agg,
             loop fuel template w
               {| currentPageUrl := u; currentPage := page; aggregatedData := agg |}
             = ({| requested := (requested w ++ repeat u fuel)%list; files := files w |},
                Next {| currentPageUrl := u;
                        currentPage := (page + Z.of_nat fuel)%Z;
                        aggregatedData := (agg ++ concat (repeat batch fuel))%list |})).
  { induction fuel as [|fuel IH]; intros w page agg.
    - simpl. rewrite !app_nil_r, Z.add_0_r. destruct w; reflexivity.
    - cbn [loop]. unfold iteration at 1. cbn [currentPageUrl currentPage aggregatedData].
      rewrite Hgoto, Heval. unfold limitReached. rewrite Hlim, Hnext.
      rewrite IH. unfold record_request. cbn [requested files].
      rewrite <- !app_assoc. cbn [repeat concat app].
      replace (page + 1 + Z.of_nat fuel)%Z with (page + Z.of_nat (S fuel))%Z by lia.
      reflexivity. }
  intros fuel w. unfold start. rewrite G. reflexivity.
Qed.

(** X6. With the method [class] for the items no page is ever scraped:
    the selection is an [HTMLCollection], [items.forEach] is not a
    function, and when [itemSelector] is missing reading [replace] throws
    before that.  A request whose first template is such a template asks
    for the start URL once and is answered with "Scraping failed.". *)
Theorem class_item_method_fails (template : Template.t) :
  Template.itemSelectorMethod template = Some "class" ->
  (forall document, evaluate document template = Throw TypeError)
  /\ (forall fuel u host name rest w,
        u <> "" ->
        hostname u = Some host ->
        scrape (S fuel) {| url := Some u; templates := Some ((name, template) :: rest) |} w
        = (record_request w u, Responded scrapingFailed)).
Proof.
  intros Hm.
  assert (Heval : forall document, evaluate document template = Throw TypeError).
  { intros document. unfold evaluate, selectItems. rewrite Hm. simpl.
    destruct (Template.itemSelector template); reflexivity. }
  split; [exact Heval|].
  intros fuel u host name rest w Hu Hhost.
  unfold scrape. cbn [url templates]. rewrite (eqb_neq_false _ _ Hu), Hhost.
  cbn [forTemplates loop]. unfold iteration. cbn [start currentPageUrl].
  destruct (goto (length (requested w)) u) as [document|]; [rewrite Heval|]; reflexivity.
Qed.

Lemma forTemplates_within_limits (fuel : nat) (u domain : string)
  (ts : list (string * Template.t)) (limits : list Z) :
  Forall2 (fun t limit => Template.paginationLimit (snd t) = Some limit
                          /\ (0 < limit <= Z.of_nat fuel)%Z) ts limits ->
  forall w,
    snd (forTemplates fuel u domain ts w) <> Unfinished
    /\ exists visited,
         requested (fst (forTemplates fuel u domain ts w)) = (requested w ++ visited)%list
         /\ (Z.of_nat (length visited) <= fold_right Z.add 0%Z limits)%Z.
Proof.
  induction 1 as [|[name template] limit ts limits (Hlim & Hpos & Hfuel) Hrest IH];
    intros w; simpl.
  - split; [discriminate|]. exists []. rewrite app_nil_r. split; [reflexivity|simpl; lia].
  - simpl in Hlim.
    assert (Hsum : (0 <= fold_right Z.add 0%Z limits)%Z).
    { clear - Hrest. induction Hrest as [|t l ts ls (_ & Hl & _) _ IH]; simpl; lia. }
    destruct (loop_requests_bound fuel template limit Hlim Hpos w (start u))
      as (visited & Hreq & Hlen); [simpl; lia|].
    pose proof (loop_leaves_within_limit fuel template limit Hlim Hpos w (start u)) as Hleft.
    simpl in Hlen, Hleft.
    destruct (loop fuel template w (start u)) as [w1 [st|st|e]]; simpl in Hreq.
    + exfalso. apply (Hleft ltac:(lia) ltac:(lia) st). reflexivity.
    + destruct (IH (saveCsv domain name (aggregatedData st) w1)) as (Hfin & more & Hreq' & Hlen').
      split; [exact Hfin|]. exists (visited ++ more)%list.
      rewrite Hreq', saveCsv_requested, Hreq, <- app_assoc. split; [reflexivity|].
      rewrite length_app. lia.
    + split; [discriminate|]. exists visited. split; [exact Hreq|]. simpl. lia.
Qed.

(** X23. When every template of a request has a positive page limit, the
    handler comes to an end (with a response, or with the exception of a
    start URL that does not parse), and it asks for no more pages than the
    limits add up to. *)
Theorem request_ends_within_limits (fuel : nat) (u : string)
  (ts : list (string * Template.t)) (limits : list Z) (w : World) :
  Forall2 (fun t limit => Template.paginationLimit (snd t) = Some limit
                          /\ (0 < limit <= Z.of_nat fuel)%Z) ts limits ->
  snd (scrape fuel {| url := Some u; templates := Some ts |} w) <> Pending
  /\ exists visited,
       requested (fst (scrape fuel {| url := Some u; templates := Some ts |} w))
       = (requested w ++ visited)%list
       /\ (Z.of_nat (length visited) <= fold_right Z.add 0%Z limits)%Z.
Proof.
  intros Hts.
  assert (Hsum : (0 <= fold_right Z.add 0%Z limits)%Z).
  { clear - Hts. induction Hts as [|t l ts ls (_ & Hl & _) _ IH]; simpl; lia. }
  assert (Hnothing : exists visited,
             requested w = (requested w ++ visited)%list
             /\ (Z.of_nat (length visited) <= fold_right Z.add 0%Z limits)%Z).
  { exists []. rewrite app_nil_r. split; [reflexivity|simpl; lia]. }
  unfold scrape. cbn [url templates].
  destruct (u =? ""); [split; [discriminate|exact Hnothing]|].
  destruct (hostname u) as [host|]; [|split; [discriminate|exact Hnothing]].
  destruct (forTemplates_within_limits fuel u (normalizeDomain host) ts limits Hts w)
    as (Hfin & visited & Hreq & Hlen).
  destruct (forTemplates fuel u (normalizeDomain host) ts w) as [w' [|e|]];
    simpl in Hfin, Hreq |- *; try congruence;
    (split; [discriminate|]; exists visited; split; assumption).
Qed.

End Scraper.

(** * The properties on the fixtures *)

Import Fixture.

(** The example of the specification for the pagination limit: with a limit
    of two pages, two cards and a next link on the first page, one card and
    no next link on the second, the traversal visits both pages and ends
    with three records. *)
Example limit_of_two_pages :
  loop selectors regexp resolve anchorHref site 5 (cards (Some 2%Z)) emptyWorld (start listUrl)
  = ({| requested := [listUrl; "https://x.test/list?page=2"]; files := [] |},
     Stop {| currentPageUrl := "https://x.test/list?page=2";
             currentPage := 2;
             aggregatedData := [[("title", JStr "Alpha")]; [("title", JStr "Beta")];
                                [("title", JStr "Gamma")]] |}).
Proof. reflexivity. Qed.

(** With the method [class] as the item method the batch is never built:
    the selection is an [HTMLCollection], which has no [forEach]. *)
Example class_items_throw :
  evaluate selectors regexp page1
    (Template.make (Some ".card") (Some "class") (Some [("title", titleField)]) None None)
  = Throw TypeError.
Proof. reflexivity. Qed.



(** The method name [xpath] finds nothing, for a field and for the items. *)
Lemma unknown_method_matches_nothing_witness :
  fieldValue selectors regexp (card "Alpha")
    (FieldSpec.make (Some "text") (Some ".title") (Some "xpath") None) = JStr ""
  /\ evaluate selectors regexp page1
       (Template.make (Some ".card") (Some "xpath") (Some [("title", titleField)]) None None)
     = Normal [].
Proof.
  assert (H : "xpath" <> "" /\ "xpath" <> "css" /\ "xpath" <> "class"
              /\ "xpath" <> "id" /\ "xpath" <> "regex")
    by (repeat split; discriminate).
  destruct H as (H0 & H1 & H2 & H3 & H4).
  destruct (unknown_method_matches_nothing selectors regexp resolve anchorHref site
              "xpath" H0 H1 H2 H3 H4)
    as (_ & _ & Hfield & Hitems & _).
  split; [apply Hfield|apply Hitems]; reflexivity.
Defined.

(** C10, as stated, fails on the empty method name: it is replaced by
    [css], so the field gets the text of the element that the selector
    finds, and the item selection yields the two cards of the page. *)
Lemma empty_method_falls_back_to_css :
  fieldValue selectors regexp (card "Alpha")
    (FieldSpec.make (Some "text") (Some ".title") (Some "") None) = JStr "Alpha"
  /\ evaluate selectors regexp page1
       (Template.make (Some ".card") (Some "") (Some [("title", titleField)]) None None)
     = Normal [[("title", JStr "Alpha")]; [("title", JStr "Beta")]].
Proof. split; reflexivity. Qed.



(** C2, the defect. The records of the first page for a template with a
    [text] field and an [attribute] field: the anchors of the cards have no
    [href], and the value under [link] is [null]. *)
Theorem record_with_null_value :
  evaluate selectors regexp page1 cardLinks
  = Normal [[("title", JStr "Alpha"); ("link", JNull)];
            [("title", JStr "Beta"); ("link", JNull)]].
Proof. reflexivity. Qed.

(** The two pages of the site: the counter is 2 when the loop is left. *)
Lemma page_counter_counts_pages_witness :
  exists visited,
    [listUrl; "https://x.test/list?page=2"] = ([] ++ visited)%list
    /\ 2%Z = Z.of_nat (length visited).
Proof.
  apply (page_counter_counts_pages selectors regexp resolve anchorHref site
           5 (cards None) emptyWorld
           {| requested := [listUrl; "https://x.test/list?page=2"]; files := [] |}
           listUrl
           {| currentPageUrl := "https://x.test/list?page=2";
              currentPage := 2;
              aggregatedData := [[("title", JStr "Alpha")]; [("title", JStr "Beta")];
                                 [("title", JStr "Gamma")]] |}).
  left. reflexivity.
Defined.

(** With a limit of two pages, at most two pages are asked for. *)
Lemma pagination_limit_precedence_witness :
  (0 < 2)%Z
  /\ exists visited,
       requested (fst (loop selectors regexp resolve anchorHref site 5 (cards (Some 2%Z))
                         emptyWorld (start listUrl)))
       = ([] ++ visited)%list
       /\ (Z.of_nat (length visited) <= 2)%Z.
Proof.
  split; [reflexivity|].
  exact (proj1 (proj2 (pagination_limit_precedence selectors regexp resolve anchorHref site
                         (cards (Some 2%Z)) 2%Z eq_refl eq_refl))
           5 emptyWorld listUrl).
Defined.

(** The three records of the two pages of the site. *)
Lemma aggregation_is_concatenation_witness :
  exists visited,
    let batches := pageBatches selectors regexp site (cards None) 0 visited in
    [listUrl; "https://x.test/list?page=2"] = ([] ++ visited)%list
    /\ [[("title", JStr "Alpha")]; [("title", JStr "Beta")]; [("title", JStr "Gamma")]]
       = concat batches
    /\ 3 = list_sum (map (@length JsObject) batches).
Proof.
  apply (aggregation_is_concatenation selectors regexp resolve anchorHref site
           5 (cards None) emptyWorld
           {| requested := [listUrl; "https://x.test/list?page=2"]; files := [] |}
           listUrl
           {| currentPageUrl := "https://x.test/list?page=2";
              currentPage := 2;
              aggregatedData := [[("title", JStr "Alpha")]; [("title", JStr "Beta")];
                                 [("title", JStr "Gamma")]] |}).
  left. reflexivity.
Defined.

(** The first page has a next link, which resolves to the second page. *)
Lemma next_link_check_witness :
  iteration selectors regexp resolve anchorHref site (cards None) emptyWorld (start listUrl)
  = ({| requested := [listUrl]; files := [] |},
     Next {| currentPageUrl := "https://x.test/list?page=2";
             currentPage := 2;
             aggregatedData := [[("title", JStr "Alpha")]; [("title", JStr "Beta")]] |}).
Proof.
  destruct (next_link_check selectors regexp resolve anchorHref site (cards None)
              emptyWorld (start listUrl) page1
              [[("title", JStr "Alpha")]; [("title", JStr "Beta")]]
              eq_refl eq_refl eq_refl) as (_ & _ & H).
  assert (Hne : "a.next" <> "") by discriminate.
  destruct (H nextLink "a.next" eq_refl eq_refl Hne) as (_ & H').
  destruct (H' true (JStr "/list?page=2") eq_refl) as (_ & _ & H'').
  exact (H'' eq_refl eq_refl).
Defined.

(** C4, as stated, fails when the [href] that was found cannot be
    resolved: the search finds the link of the page and its [href] is not
    empty, yet the traversal neither ends nor goes on, it fails. *)
Lemma next_link_unresolvable_href_fails :
  findNextPage selectors regexp anchorHref brokenLinkPage "a.next" "css"
  = Normal (true, JStr "http://")
  /\ resolve "http://" listUrl = None
  /\ iteration selectors regexp resolve anchorHref brokenLinkSite (cards None)
       emptyWorld (start listUrl)
     = ({| requested := [listUrl]; files := [] |}, Raise TypeError).
Proof. repeat split. Qed.

(** The second template fails on its first navigation; the file of the
    first template is kept. *)
Lemma navigation_failure_persistence_witness :
  scrape selectors regexp resolve host anchorHref flakySite 5
    {| url := Some listUrl; templates := Some [("first", cardsOnce); ("second", cardsOnce)] |}
    emptyWorld
  = ({| requested := [listUrl; listUrl];
        files := [{| csvDomain := "x.test"; csvTemplate := "first"; csvHeader := ["title"];
                     csvRecords := [[("title", JStr "Alpha")]; [("title", JStr "Beta")]] |}] |},
     Responded scrapingFailed).
Proof.
  assert (Hu : listUrl <> "") by discriminate.
  exact (proj1 (navigation_failure_persistence selectors regexp resolve host anchorHref
                  flakySite 5 listUrl "x.test" "second" [("first", cardsOnce)] [] cardsOnce
                  emptyWorld
                  {| requested := [listUrl];
                     files := [{| csvDomain := "x.test"; csvTemplate := "first";
                                  csvHeader := ["title"];
                                  csvRecords := [[("title", JStr "Alpha")];
                                                 [("title", JStr "Beta")]] |}] |}
                  {| requested := [listUrl; listUrl];
                     files := [{| csvDomain := "x.test"; csvTemplate := "first";
                                  csvHeader := ["title"];
                                  csvRecords := [[("title", JStr "Alpha")];
                                                 [("title", JStr "Beta")]] |}] |}
                  Hu eq_refl eq_refl eq_refl)).
Defined.

(** C6, as stated, fails: the second navigation of the request, the first
    one of the second template, is rejected; the request is answered with
    the error, and the file of the first template is there. *)
Lemma navigation_failure_keeps_earlier_csv :
  flakySite 1 listUrl = None
  /\ snd (scrape selectors regexp resolve host anchorHref flakySite 5
            {| url := Some listUrl;
               templates := Some [("first", cardsOnce); ("second", cardsOnce)] |}
            emptyWorld)
     = Responded scrapingFailed
  /\ files (fst (scrape selectors regexp resolve host anchorHref flakySite 5
                   {| url := Some listUrl;
                      templates := Some [("first", cardsOnce); ("second", cardsOnce)] |}
                   emptyWorld))
     = [{| csvDomain := "x.test"; csvTemplate := "first"; csvHeader := ["title"];
           csvRecords := [[("title", JStr "Alpha")]; [("title", JStr "Beta")]] |}].
Proof. repeat split. Qed.

(** A template without [fields] does not keep the URL from being
    navigated to. *)
Lemma request_validation_witness :
  exists more,
    requested (fst (scrape selectors regexp resolve host anchorHref site 1
                      {| url := Some listUrl; templates := Some [("cards", noFields)] |}
                      emptyWorld))
    = ([] ++ listUrl :: more)%list.
Proof.
  assert (Hu : listUrl <> "") by discriminate.
  exact (proj2 (proj2 (proj2 (request_validation selectors regexp resolve host anchorHref site)))
           0 listUrl "x.test" "cards" noFields [] emptyWorld Hu eq_refl).
Defined.

(** C7, as stated, fails: a template without [fields], and a template
    without [itemSelector], are not rejected; the page is navigated to and
    the request is answered with the success message. *)
Lemma template_without_fields_is_scraped :
  Template.fields noFields = None
  /\ scrape selectors regexp resolve host anchorHref site 5
       {| url := Some listUrl; templates := Some [("cards", noFields)] |} emptyWorld
     = ({| requested := [listUrl];
           files := [{| csvDomain := "x.test"; csvTemplate := "cards"; csvHeader := [];
                        csvRecords := [[]; []] |}] |},
        Responded scrapingCompleted)
  /\ Template.itemSelector noItemSelector = None
  /\ scrape selectors regexp resolve host anchorHref site 5
       {| url := Some listUrl; templates := Some [("cards", noItemSelector)] |} emptyWorld
     = ({| requested := [listUrl]; files := [] |}, Responded scrapingCompleted).
Proof. repeat split. Qed.

(** * Further properties on the samples *)

Import Sample.

(** A limit of -3 ends the traversal of the two-page site with its first
    page. *)
Lemma limit_edge_cases_witness :
  requested (fst (loop selectors regexp resolve anchorHref site 3 (cards (Some (-3)%Z))
                    emptyWorld (start listUrl)))
  = ([] ++ [listUrl])%list.
Proof.
  assert (Hnz : (-3)%Z <> 0%Z) by discriminate.
  assert (Hle : (-3 <= 1)%Z) by (intros H; discriminate H).
  exact (proj1 (proj2 (limit_edge_cases selectors regexp resolve anchorHref site)
                  (cards (Some (-3)%Z)) (-3)%Z 2 emptyWorld listUrl eq_refl Hnz Hle)).
Defined.

(** Four turns on the page that links to itself. *)
Lemma self_link_never_stops_witness :
  loop selectors regexp resolve anchorHref loopSite 4 (cards None) emptyWorld (start loopUrl)
  = ({| requested := ([] ++ repeat loopUrl 4)%list; files := [] |},
     Next {| currentPageUrl := loopUrl;
             currentPage := (1 + Z.of_nat 4)%Z;
             aggregatedData := concat (repeat [[("title", JStr "Alpha")]] 4) |}).
Proof.
  apply (self_link_never_stops selectors regexp resolve anchorHref loopSite
           (cards None) loopUrl loopPage [[("title", JStr "Alpha")]]
           eq_refl (fun n => eq_refl) eq_refl eq_refl 4 emptyWorld).
Defined.

(** The cards of the two-page site, asked for by class. *)
Lemma class_item_method_fails_witness :
  scrape selectors regexp resolve host anchorHref site 1
    {| url := Some listUrl; templates := Some [("cards", cardsByClass)] |} emptyWorld
  = ({| requested := [listUrl]; files := [] |}, Responded scrapingFailed).
Proof.
  assert (Hu : listUrl <> "") by discriminate.
  exact (proj2 (class_item_method_fails selectors regexp resolve host anchorHref site
                  cardsByClass eq_refl)
           0 listUrl "x.test" "cards" [] emptyWorld Hu eq_refl).
Defined.

(** Two templates with the limits 1 and 2 on the two-page site. *)
Lemma request_ends_within_limits_witness :
  snd (scrape selectors regexp resolve host anchorHref site 2
         {| url := Some listUrl;
            templates := Some [("first", cards (Some 1%Z)); ("second", cards (Some 2%Z))] |}
         emptyWorld)
  <> Pending
  /\ exists visited,
       requested (fst (scrape selectors regexp resolve host anchorHref site 2
                         {| url := Some listUrl;
                            templates := Some [("first", cards (Some 1%Z));
                                               ("second", cards (Some 2%Z))] |}
                         emptyWorld))
       = ([] ++ visited)%list
       /\ (Z.of_nat (length visited) <= fold_right Z.add 0%Z [1%Z; 2%Z])%Z.
Proof.
  apply (request_ends_within_limits selectors regexp resolve host anchorHref site).
  repeat constructor; simpl; lia.
Defined.
